(** * The granular synthesis engine of ambify ([useGranularEngine.ts])

    A shallow embedding of the React hook [useGranularEngine] and the
    properties of its grain scheduling: grain placement inside the in/out
    window, the attack/release envelope, the pitch ratio, the tick interval,
    the offline render target, the reverb impulse and the parameter merge.

    Numbers.  A JavaScript [number] is modelled as an exact rational ([Q]):
    the clamps ([Math.max], [Math.min]), the rounding to integers
    ([Math.floor], [Math.ceil]) and the comparisons of the source are the
    ones of [Q].  Rounding of doubles, [NaN] and the infinities are outside
    this model.  The one transcendental operation, [Math.pow(2, x)] of the
    pitch ratio, takes its value in the reals ([R]).

    Source.  The model follows [ambify-alpha/src/app/hooks/
    useGranularEngine.ts], whose line numbers the comments give.  The later
    version of the hook has the same callbacks word for word, but for a
    master gain between the graph and the speakers.

    Effects.  The refs of the hook ([audioCtxRef], [bufferRef], ...), its two
    pieces of React state, the alerts shown to the user and the number of
    values drawn from [Math.random] so far form one record, [Engine]; every
    callback of the hook is a computation in a state monad over it.  The
    values returned by [Math.random] are an arbitrary stream [rand], and the
    reading of [ctx.currentTime] at a tick is an argument of [spawnGrain]. *)

From Stdlib Require Import QArith Qminmax Qround Qreals Reals Lra Lqa Lia.
From Stdlib Require Import List String ZArith Bool.
Import ListNotations.
Open Scope Q_scope.

(** ** JavaScript's [Math] on the number model *)

Module JS.

Definition Math_max (x y : Q) : Q := Qmax x y.
Definition Math_min (x y : Q) : Q := Qmin x y.
Definition Math_floor (x : Q) : Z := Qfloor x.
Definition Math_ceil (x : Q) : Z := Qceiling x.

(** [Math.pow(x, 2)]: an integer power of a rational. *)
Definition Math_pow (x : Q) (n : Z) : Q := Qpower x n.

(** [Math.pow(2, e)]: a real power of a positive base. *)
Definition Math_pow_real (b e : R) : R := Rpower b e.

(** [{...o, ...partial}] on one field: a supplied value overrides. *)
Definition spread (cur : Q) (supplied : option Q) : Q :=
  match supplied with
  | Some v => v
  | None => cur
  end.

End JS.
Import JS.

(** ** Parameters *)

(** [type GranularParams], lines 19-30. *)
Record GranularParams : Type := mkParams {
  grainSizeMs : Q;
  density : Q;
  playbackRate : Q;
  detuneSemitones : Q;
  startPoint : Q;
  endPoint : Q;
  attackMs : Q;
  releaseMs : Q;
  reverbWet : Q;
  reverbDecay : Q
}.

(** [Partial<GranularParams>]: every field may be absent ([None]).  A field
    that is present holds a number, as the type of the record says. *)
Record PartialParams : Type := mkPartial {
  p_grainSizeMs : option Q;
  p_density : option Q;
  p_playbackRate : option Q;
  p_detuneSemitones : option Q;
  p_startPoint : option Q;
  p_endPoint : option Q;
  p_attackMs : option Q;
  p_releaseMs : option Q;
  p_reverbWet : option Q;
  p_reverbDecay : option Q
}.

(** The keys of [GranularParams], to speak of "every field". *)
Inductive Field : Type :=
| FGrainSizeMs | FDensity | FPlaybackRate | FDetuneSemitones | FStartPoint
| FEndPoint | FAttackMs | FReleaseMs | FReverbWet | FReverbDecay.

Definition field_of (f : Field) (p : GranularParams) : Q :=
  match f with
  | FGrainSizeMs => grainSizeMs p
  | FDensity => density p
  | FPlaybackRate => playbackRate p
  | FDetuneSemitones => detuneSemitones p
  | FStartPoint => startPoint p
  | FEndPoint => endPoint p
  | FAttackMs => attackMs p
  | FReleaseMs => releaseMs p
  | FReverbWet => reverbWet p
  | FReverbDecay => reverbDecay p
  end.

Definition supplied (f : Field) (partial : PartialParams) : option Q :=
  match f with
  | FGrainSizeMs => p_grainSizeMs partial
  | FDensity => p_density partial
  | FPlaybackRate => p_playbackRate partial
  | FDetuneSemitones => p_detuneSemitones partial
  | FStartPoint => p_startPoint partial
  | FEndPoint => p_endPoint partial
  | FAttackMs => p_attackMs partial
  | FReleaseMs => p_releaseMs partial
  | FReverbWet => p_reverbWet partial
  | FReverbDecay => p_reverbDecay partial
  end.

(** [{ ...paramsRef.current, ...partial }], line 121. *)
Definition merge (cur : GranularParams) (partial : PartialParams)
  : GranularParams :=
  {| grainSizeMs := spread (grainSizeMs cur) (p_grainSizeMs partial);
     density := spread (density cur) (p_density partial);
     playbackRate := spread (playbackRate cur) (p_playbackRate partial);
     detuneSemitones :=
       spread (detuneSemitones cur) (p_detuneSemitones partial);
     startPoint := spread (startPoint cur) (p_startPoint partial);
     endPoint := spread (endPoint cur) (p_endPoint partial);
     attackMs := spread (attackMs cur) (p_attackMs partial);
     releaseMs := spread (releaseMs cur) (p_releaseMs partial);
     reverbWet := spread (reverbWet cur) (p_reverbWet partial);
     reverbDecay := spread (reverbDecay cur) (p_reverbDecay partial) |}.

Definition no_update : PartialParams :=
  mkPartial None None None None None None None None None None.

(** ** Web Audio objects, as far as the hook uses them *)

(** An [AudioBuffer]: a decoded file, or an impulse built sample by sample. *)
Record AudioBuffer : Type := mkBuffer {
  ab_numberOfChannels : Z;
  ab_length : Z;
  ab_sampleRate : Q;
  ab_channelData : list (list Q)
}.

(** [decoded.duration]: frames over frames per second. *)
Definition ab_duration (b : AudioBuffer) : Q :=
  inject_Z (ab_length b) / ab_sampleRate b.

(** Where the gain node of a grain is connected. *)
Inductive Destination : Type := ToDry | ToWet | ToSpeakers.

(** One grain: the buffer source and the gain node created for it, with the
    values handed to [source.start], [source.playbackRate],
    [gain.linearRampToValueAtTime] and [source.stop], and the envelope
    locals they are computed from. *)
Record Grain : Type := mkGrain {
  g_when : Q;              (* source.start(when, _, _) *)
  g_offset : Q;            (* source.start(_, offset, _) *)
  g_duration : Q;          (* source.start(_, _, grainDuration) *)
  g_playbackRate : R;      (* source.playbackRate.value *)
  g_attackSec : Q;
  g_releaseSec : Q;
  g_releaseStart : Q;
  g_rampUpEnd : Q;         (* linearRampToValueAtTime(1, _) *)
  g_rampDownEnd : Q;       (* linearRampToValueAtTime(0.0001, _) *)
  g_stopAt : Q;            (* source.stop(_) *)
  g_outputs : list Destination
}.

(** The live [AudioContext]: its sample rate and the grains started on it. *)
Record AudioContext : Type := mkContext {
  ctx_sampleRate : Q;
  ctx_sources : list Grain
}.

Record GainNode : Type := mkGain { gain_value : Q }.

(** The [OfflineAudioContext] of [renderLoop] with the graph built on it:
    the channel count, length and sample rate the constructor is called
    with (that a browser refuses a length below 1 is not modelled), the
    impulse of the convolver, the two gains and the grains. *)
Record OfflineAudioContext : Type := mkOffline {
  oc_channels : Z;
  oc_length : Z;
  oc_sampleRate : Q;
  oc_convolver : AudioBuffer;
  oc_wet : GainNode;
  oc_dry : GainNode;
  oc_sources : list Grain
}.

(** What [offlineCtx.startRendering()] resolves to: a buffer with the
    channel count, length and sample rate the context was created with.
    The samples are the backend's; the graph they are rendered from is kept. *)
Record RenderedBuffer : Type := mkRendered {
  rb_numberOfChannels : Z;
  rb_length : Z;
  rb_sampleRate : Q;
  rb_graph : OfflineAudioContext
}.

Definition startRendering (c : OfflineAudioContext) : RenderedBuffer :=
  {| rb_numberOfChannels := oc_channels c;
     rb_length := oc_length c;
     rb_sampleRate := oc_sampleRate c;
     rb_graph := c |}.

(** What a call of [renderLoop] comes to. *)
Inductive Rendering : Type :=
| ReturnedNull
| Resolved (rendered : RenderedBuffer)
| Unfinished.   (* the grid loop of the model ran out of fuel *)

(** ** The state of one engine *)

Record Engine : Type := mkEngine {
  audioCtxRef : option AudioContext;
  bufferRef : option AudioBuffer;
  paramsRef : GranularParams;
  timerRef : option Q;              (* the interval of the running timer *)
  dryGainRef : option GainNode;
  wetGainRef : option GainNode;
  reverbRef : option AudioBuffer;   (* the convolver, by its impulse *)
  duration : Q;
  isPlaying : bool;
  alerts : list string;
  drawn : nat                       (* calls of Math.random so far *)
}.

Definition set_audioCtxRef (v : option AudioContext) (s : Engine) : Engine :=
  mkEngine v (bufferRef s) (paramsRef s) (timerRef s) (dryGainRef s)
    (wetGainRef s) (reverbRef s) (duration s) (isPlaying s) (alerts s)
    (drawn s).
Definition set_bufferRef (v : option AudioBuffer) (s : Engine) : Engine :=
  mkEngine (audioCtxRef s) v (paramsRef s) (timerRef s) (dryGainRef s)
    (wetGainRef s) (reverbRef s) (duration s) (isPlaying s) (alerts s)
    (drawn s).
Definition set_paramsRef (v : GranularParams) (s : Engine) : Engine :=
  mkEngine (audioCtxRef s) (bufferRef s) v (timerRef s) (dryGainRef s)
    (wetGainRef s) (reverbRef s) (duration s) (isPlaying s) (alerts s)
    (drawn s).
Definition set_timerRef (v : option Q) (s : Engine) : Engine :=
  mkEngine (audioCtxRef s) (bufferRef s) (paramsRef s) v (dryGainRef s)
    (wetGainRef s) (reverbRef s) (duration s) (isPlaying s) (alerts s)
    (drawn s).
Definition set_dryGainRef (v : option GainNode) (s : Engine) : Engine :=
  mkEngine (audioCtxRef s) (bufferRef s) (paramsRef s) (timerRef s) v
    (wetGainRef s) (reverbRef s) (duration s) (isPlaying s) (alerts s)
    (drawn s).
Definition set_wetGainRef (v : option GainNode) (s : Engine) : Engine :=
  mkEngine (audioCtxRef s) (bufferRef s) (paramsRef s) (timerRef s)
    (dryGainRef s) v (reverbRef s) (duration s) (isPlaying s) (alerts s)
    (drawn s).
Definition set_reverbRef (v : option AudioBuffer) (s : Engine) : Engine :=
  mkEngine (audioCtxRef s) (bufferRef s) (paramsRef s) (timerRef s)
    (dryGainRef s) (wetGainRef s) v (duration s) (isPlaying s) (alerts s)
    (drawn s).
Definition setDuration (v : Q) (s : Engine) : Engine :=
  mkEngine (audioCtxRef s) (bufferRef s) (paramsRef s) (timerRef s)
    (dryGainRef s) (wetGainRef s) (reverbRef s) v (isPlaying s) (alerts s)
    (drawn s).
Definition setIsPlaying (v : bool) (s : Engine) : Engine :=
  mkEngine (audioCtxRef s) (bufferRef s) (paramsRef s) (timerRef s)
    (dryGainRef s) (wetGainRef s) (reverbRef s) (duration s) v (alerts s)
    (drawn s).
Definition set_alerts (v : list string) (s : Engine) : Engine :=
  mkEngine (audioCtxRef s) (bufferRef s) (paramsRef s) (timerRef s)
    (dryGainRef s) (wetGainRef s) (reverbRef s) (duration s) (isPlaying s) v
    (drawn s).
Definition set_drawn (v : nat) (s : Engine) : Engine :=
  mkEngine (audioCtxRef s) (bufferRef s) (paramsRef s) (timerRef s)
    (dryGainRef s) (wetGainRef s) (reverbRef s) (duration s) (isPlaying s)
    (alerts s) v.

(** [useGranularEngine(initial)] before any callback has run, lines 35-45. *)
Definition initEngine (initial : GranularParams) : Engine :=
  {| audioCtxRef := None; bufferRef := None; paramsRef := initial;
     timerRef := None; dryGainRef := None; wetGainRef := None;
     reverbRef := None; duration := 1; isPlaying := false;
     alerts := []; drawn := 0%nat |}.

(** The grains started on the live context so far. *)
Definition scheduled (s : Engine) : list Grain :=
  match audioCtxRef s with
  | Some ctx => ctx_sources ctx
  | None => []
  end.

(** ** The state monad of the callbacks *)

Definition M (A : Type) : Type := Engine -> A * Engine.

Definition ret {A : Type} (a : A) : M A := fun s => (a, s).

Definition bind {A B : Type} (c : M A) (k : A -> M B) : M B :=
  fun s => let (a, s') := c s in k a s'.

Definition get : M Engine := fun s => (s, s).

Definition modify (f : Engine -> Engine) : M unit := fun s => (tt, f s).

Declare Scope engine_scope.
Delimit Scope engine_scope with engine.
Notation "x <- c ;; k" := (bind c (fun x => k))
  (at level 61, c at next level, right associativity) : engine_scope.
Notation "c ;; k" := (bind c (fun _ => k))
  (at level 61, right associativity) : engine_scope.
Open Scope engine_scope.

Definition exec {A : Type} (c : M A) (s : Engine) : Engine := snd (c s).
Definition eval {A : Type} (c : M A) (s : Engine) : A := fst (c s).

(** [alert(msg)]: the message is shown to the user. *)
Definition alert (msg : string) : M unit :=
  modify (fun s => set_alerts (alerts s ++ [msg]) s).

(** [for (let i = 0; i < n; i++) data[i] = body(i)], on an array of [n]
    cells: the values written, in order.  [i] is the index reached, [todo]
    the number of cells left. *)
Fixpoint for_each (todo : nat) (i : Z) (body : Z -> M Q) : M (list Q) :=
  match todo with
  | O => ret []
  | S todo' =>
      v <- body i ;;
      rest <- for_each todo' (i + 1)%Z body ;;
      ret (v :: rest)
  end.

(** ** The callbacks of the hook *)

Section Hook.

(** The successive values of [Math.random()]. *)
Variable rand : nat -> Q.

(** The sample rate of the device: [new AudioContext().sampleRate]. *)
Variable deviceSampleRate : Q.

Definition Math_random : M Q :=
  fun s => (rand (drawn s), set_drawn (S (drawn s)) s).

(** [makeImpulse] of [ensureContext], lines 71-86. *)
Definition ensureContext_makeImpulse (ctx : AudioContext) (decaySec : Q)
  : M AudioBuffer :=
  let length := Z.max (Math_floor (decaySec * ctx_sampleRate ctx)) 1 in
  let sample (i : Z) : M Q :=
    r <- Math_random ;;
    ret ((r * 2 - 1) * Math_pow (1 - inject_Z i / inject_Z length) 2) in
  ch0 <- for_each (Z.to_nat length) 0 sample ;;
  ch1 <- for_each (Z.to_nat length) 0 sample ;;
  ret (mkBuffer 2 length (ctx_sampleRate ctx) [ch0; ch1]).

(** [makeImpulse] of [updateParams], lines 129-139. *)
Definition updateParams_makeImpulse (ctx : AudioContext) (decaySec : Q)
  : M AudioBuffer :=
  let length := Z.max (Math_floor (decaySec * ctx_sampleRate ctx)) 1 in
  let sample (i : Z) : M Q :=
    r <- Math_random ;;
    ret ((r * 2 - 1) * Math_pow (1 - inject_Z i / inject_Z length) 2) in
  ch0 <- for_each (Z.to_nat length) 0 sample ;;
  ch1 <- for_each (Z.to_nat length) 0 sample ;;
  ret (mkBuffer 2 length (ctx_sampleRate ctx) [ch0; ch1]).

(** [makeImpulse] of [renderLoop], lines 253-263; [offlineSampleRate] is
    [offlineCtx.sampleRate]. *)
Definition renderLoop_makeImpulse (offlineSampleRate : Q) (decaySec : Q)
  : M AudioBuffer :=
  let length := Z.max (Math_floor (decaySec * offlineSampleRate)) 1 in
  let sample (i : Z) : M Q :=
    r <- Math_random ;;
    ret ((r * 2 - 1) * Math_pow (1 - inject_Z i / inject_Z length) 2) in
  ch0 <- for_each (Z.to_nat length) 0 sample ;;
  ch1 <- for_each (Z.to_nat length) 0 sample ;;
  ret (mkBuffer 2 length offlineSampleRate [ch0; ch1]).

(** [ensureContext], lines 49-98: the context and the dry/wet/reverb graph
    are created on first use and reused afterwards. *)
Definition ensureContext : M AudioContext :=
  s0 <- get ;;
  ctx <- match audioCtxRef s0 with
         | Some ctx => ret ctx
         | None =>
             let ctx := mkContext deviceSampleRate [] in
             modify (set_audioCtxRef (Some ctx)) ;; ret ctx
         end ;;
  s1 <- get ;;
  match dryGainRef s1 with
  | Some _ => ret tt
  | None => modify (set_dryGainRef (Some (mkGain 1)))
  end ;;
  s2 <- get ;;
  match wetGainRef s2 with
  | Some _ => ret tt
  | None => modify (set_wetGainRef (Some (mkGain 1)))
  end ;;
  s3 <- get ;;
  match reverbRef s3 with
  | Some _ => ret tt
  | None =>
      impulse <- ensureContext_makeImpulse ctx (reverbDecay (paramsRef s3)) ;;
      modify (set_reverbRef (Some impulse))
  end ;;
  ret ctx.

(** [loadFile], lines 101-116; [decoded] is what [decodeAudioData] resolves
    to. *)
Definition loadFile (decoded : AudioBuffer) : M Q :=
  ensureContext ;;
  modify (set_bufferRef (Some decoded)) ;;
  modify (setDuration (ab_duration decoded)) ;;
  modify (fun s =>
    set_paramsRef
      (merge (paramsRef s)
         (mkPartial None None None None (Some 0) (Some (ab_duration decoded))
            None None None None))
      s) ;;
  ret (ab_duration decoded).

(** [updateParams], lines 120-142. *)
Definition updateParams (partial : PartialParams) : M unit :=
  modify (fun s => set_paramsRef (merge (paramsRef s) partial) s) ;;
  s1 <- get ;;
  match p_reverbWet partial, wetGainRef s1 with
  | Some wet, Some _ => modify (set_wetGainRef (Some (mkGain wet)))
  | _, _ => ret tt
  end ;;
  s2 <- get ;;
  match p_reverbDecay partial, reverbRef s2, audioCtxRef s2 with
  | Some decay, Some _, Some ctx =>
      impulse <- updateParams_makeImpulse ctx decay ;;
      modify (set_reverbRef (Some impulse))
  | _, _, _ => ret tt
  end.

(** [clearTimer], lines 145-150. *)
Definition clearTimer : M unit :=
  s <- get ;;
  match timerRef s with
  | Some _ => modify (set_timerRef None)
  | None => ret tt
  end.

(** [source.start] on the live context: one more grain sounds. *)
Definition start_source (g : Grain) : M unit :=
  modify (fun s =>
    match audioCtxRef s with
    | Some ctx =>
        set_audioCtxRef
          (Some (mkContext (ctx_sampleRate ctx) (ctx_sources ctx ++ [g]))) s
    | None => s
    end).

(** [spawnGrain], lines 154-214; [now] is [ctx.currentTime]. *)
Definition spawnGrain (now : Q) : M unit :=
  s <- get ;;
  match audioCtxRef s, bufferRef s with
  | Some ctx, Some buffer =>
      let params := paramsRef s in
      if Qle_bool (endPoint params) (startPoint params) then ret tt
      else
        let grainDuration := grainSizeMs params / 1000 in
        let windowLength :=
          Math_max (endPoint params - startPoint params) 0.05 in
        let offsetRange := Math_max (windowLength - grainDuration) 0 in
        r <- Math_random ;;
        let randomOffset := r * offsetRange in
        let offset := startPoint params + randomOffset in
        let detuneMultiplier :=
          Math_pow_real 2 (Q2R (detuneSemitones params / 12)) in
        let rate := (Q2R (playbackRate params) * detuneMultiplier)%R in
        let maxEnvelope := Math_max (grainDuration - 0.005) 0.005 in
        let attackSec := Math_min (attackMs params / 1000) maxEnvelope in
        let releaseSec :=
          Math_min (releaseMs params / 1000) (maxEnvelope - attackSec) in
        let releaseStart :=
          now + Math_max (grainDuration - releaseSec) attackSec in
        let outputs :=
          match dryGainRef s, wetGainRef s with
          | Some _, Some _ => [ToDry; ToWet]
          | Some _, None => [ToDry]
          | None, Some _ => [ToWet]
          | None, None => [ToSpeakers]
          end in
        start_source
          {| g_when := now; g_offset := offset; g_duration := grainDuration;
             g_playbackRate := rate;
             g_attackSec := attackSec; g_releaseSec := releaseSec;
             g_releaseStart := releaseStart;
             g_rampUpEnd := now + attackSec;
             g_rampDownEnd := releaseStart + releaseSec;
             g_stopAt := now + grainDuration + 0.05;
             g_outputs := outputs |}
  | _, _ => ret tt
  end.

(** [start], lines 217-228.  The wait for [ctx.resume()] is not modelled:
    the call runs to its end in one step. *)
Definition start : M unit :=
  ensureContext ;;
  s <- get ;;
  match bufferRef s with
  | None => alert "Load an audio file first."
  | Some _ =>
      clearTimer ;;
      s' <- get ;;
      let intervalMs := 1000 / Math_max (density (paramsRef s')) 1 in
      modify (set_timerRef (Some intervalMs)) ;;
      modify (setIsPlaying true)
  end.

(** [stop], lines 231-234. *)
Definition stop : M unit :=
  clearTimer ;;
  modify (setIsPlaying false).

(** One firing of the timer set by [start]: [setInterval] calls
    [spawnGrain] while the timer is there. *)
Definition tick (now : Q) : M unit :=
  s <- get ;;
  match timerRef s with
  | Some _ => spawnGrain now
  | None => ret tt
  end.

(** The loop of [renderLoop], lines 279-307:
    [for (let t = 0; t < durationSec; t += step) { ... }].
    [None] when [fuel] iterations did not reach the end of the grid. *)
Fixpoint renderLoop_for (fuel : nat) (params : GranularParams)
    (durationSec grainDuration step t : Q) : M (option (list Grain)) :=
  if Qlt_le_dec t durationSec then
    match fuel with
    | O => ret None
    | S fuel' =>
        let windowLength :=
          Math_max (endPoint params - startPoint params) 0.05 in
        let offsetRange := Math_max (windowLength - grainDuration) 0 in
        r <- Math_random ;;
        let randomOffset := r * offsetRange in
        let offset := startPoint params + randomOffset in
        let detuneMultiplier :=
          Math_pow_real 2 (Q2R (detuneSemitones params / 12)) in
        let rate := (Q2R (playbackRate params) * detuneMultiplier)%R in
        let maxEnvelope := Math_max (grainDuration - 0.005) 0.005 in
        let attackSec := Math_min (attackMs params / 1000) maxEnvelope in
        let releaseSec :=
          Math_min (releaseMs params / 1000) (maxEnvelope - attackSec) in
        let releaseStart :=
          t + Math_max (grainDuration - releaseSec) attackSec in
        let grain :=
          {| g_when := t; g_offset := offset; g_duration := grainDuration;
             g_playbackRate := rate;
             g_attackSec := attackSec; g_releaseSec := releaseSec;
             g_releaseStart := releaseStart;
             g_rampUpEnd := t + attackSec;
             g_rampDownEnd := releaseStart + releaseSec;
             g_stopAt := t + grainDuration + 0.05;
             g_outputs := [ToDry; ToWet] |} in
        rest <- renderLoop_for fuel' params durationSec grainDuration step
                  (t + step) ;;
        ret (option_map (cons grain) rest)
    end
  else ret (Some []).

(** Iterations granted to the loop: the grid [0, step, 2 step, ...] has
    [ceil(durationSec * max(density, 1))] points below [durationSec]. *)
Definition grid_fuel (params : GranularParams) (durationSec : Q) : nat :=
  Z.to_nat (Qceiling (durationSec * Math_max (density params) 1)).

(** [renderLoop], lines 237-312. *)
Definition renderLoop (durationSec : Q) : M Rendering :=
  s <- get ;;
  match bufferRef s with
  | None => alert "Load an audio file first." ;; ret ReturnedNull
  | Some buffer =>
      let params := paramsRef s in
      liveCtx <- ensureContext ;;
      let sampleRate := ctx_sampleRate liveCtx in
      let channels := ab_numberOfChannels buffer in
      let totalFrames := Math_ceil (durationSec * sampleRate) in
      impulse <- renderLoop_makeImpulse sampleRate (reverbDecay params) ;;
      let wet := mkGain (reverbWet params) in
      let dry := mkGain 1 in
      let grainDuration := grainSizeMs params / 1000 in
      let step := 1 / Math_max (density params) 1 in
      grains <- renderLoop_for (grid_fuel params durationSec) params
                  durationSec grainDuration step 0 ;;
      match grains with
      | None => ret Unfinished
      | Some sources =>
          ret (Resolved
                 (startRendering
                    (mkOffline channels totalFrames sampleRate impulse wet
                       dry sources)))
      end
  end.

End Hook.

(** ** The grain of the specification

    Section 4.2 of the specification (GrainSynthesizer), steps 2 to 10, as
    one function of the parameter snapshot, the random draw [r] and the
    clock [now]; step 1 (Skip when [endPoint <= startPoint]) is the guard of
    the caller.  The live and the offline path are compared with it. *)

Definition grainDuration_of (params : GranularParams) : Q :=
  grainSizeMs params / 1000.

Definition windowLength_of (params : GranularParams) : Q :=
  Math_max (endPoint params - startPoint params) 0.05.

Definition offsetRange_of (params : GranularParams) : Q :=
  Math_max (windowLength_of params - grainDuration_of params) 0.

Definition maxEnvelope_of (params : GranularParams) : Q :=
  Math_max (grainDuration_of params - 0.005) 0.005.

Definition attack_of (params : GranularParams) : Q :=
  Math_min (attackMs params / 1000) (maxEnvelope_of params).

Definition release_of (params : GranularParams) : Q :=
  Math_min (releaseMs params / 1000)
    (maxEnvelope_of params - attack_of params).

Definition rateMultiplier_of (params : GranularParams) : R :=
  (Q2R (playbackRate params)
   * Rpower 2 (Q2R (detuneSemitones params / 12)))%R.

Definition synthesize (params : GranularParams) (r now : Q)
    (outputs : list Destination) : Grain :=
  let releaseStart :=
    now + Math_max (grainDuration_of params - release_of params)
            (attack_of params) in
  {| g_when := now;
     g_offset := startPoint params + r * offsetRange_of params;
     g_duration := grainDuration_of params;
     g_playbackRate := rateMultiplier_of params;
     g_attackSec := attack_of params;
     g_releaseSec := release_of params;
     g_releaseStart := releaseStart;
     g_rampUpEnd := now + attack_of params;
     g_rampDownEnd := releaseStart + release_of params;
     g_stopAt := now + grainDuration_of params + 0.05;
     g_outputs := outputs |}.

(** The connections of a live grain, lines 199-206. *)
Definition live_outputs (s : Engine) : list Destination :=
  match dryGainRef s, wetGainRef s with
  | Some _, Some _ => [ToDry; ToWet]
  | Some _, None => [ToDry]
  | None, Some _ => [ToWet]
  | None, None => [ToSpeakers]
  end.

(** The [k]-th point of the offline grid: [t += step], [k] times from 0. *)
Fixpoint grid_time (step : Q) (k : nat) : Q :=
  match k with
  | O => 0
  | S k' => grid_time step k' + step
  end.

(** A tick of the live timer finds a context, a buffer and a valid region:
    the state in which [spawnGrain] does start a grain. *)
Definition live_ready (s : Engine) : Prop :=
  audioCtxRef s <> None /\ bufferRef s <> None
  /\ startPoint (paramsRef s) < endPoint (paramsRef s).

(** The states an engine goes through: the callbacks the hook returns, and
    the firings of its timer, from [useGranularEngine(initial)]. *)
Inductive reachable (rand : nat -> Q) (deviceSampleRate : Q)
    (initial : GranularParams) : Engine -> Prop :=
| reach_init : reachable rand deviceSampleRate initial (initEngine initial)
| reach_loadFile s decoded :
    reachable rand deviceSampleRate initial s ->
    reachable rand deviceSampleRate initial
      (exec (loadFile rand deviceSampleRate decoded) s)
| reach_updateParams s partial :
    reachable rand deviceSampleRate initial s ->
    reachable rand deviceSampleRate initial
      (exec (updateParams rand partial) s)
| reach_start s :
    reachable rand deviceSampleRate initial s ->
    reachable rand deviceSampleRate initial
      (exec (start rand deviceSampleRate) s)
| reach_stop s :
    reachable rand deviceSampleRate initial s ->
    reachable rand deviceSampleRate initial (exec stop s)
| reach_tick s now :
    reachable rand deviceSampleRate initial s ->
    reachable rand deviceSampleRate initial (exec (tick rand now) s)
| reach_renderLoop s durationSec :
    reachable rand deviceSampleRate initial s ->
    reachable rand deviceSampleRate initial
      (exec (renderLoop rand deviceSampleRate durationSec) s).

(** ** The impulse of the specification

    Section 4.4 of the specification (ReverbImpulseGenerator):
    [generate(decaySec, sampleRate)], with the draws of the random stream
    it consumes, the first one being number [first]. *)

Definition impulse_length (decaySec sampleRate : Q) : Z :=
  Z.max (Qfloor (decaySec * sampleRate)) 1.

Definition impulse_channel (rand : nat -> Q) (first : nat) (length : Z)
  : list Q :=
  map (fun i =>
         (rand (first + i)%nat * 2 - 1)
         * Qpower (1 - inject_Z (Z.of_nat i) / inject_Z length) 2)
      (seq 0 (Z.to_nat length)).

Definition generate (rand : nat -> Q) (first : nat)
    (decaySec sampleRate : Q) : AudioBuffer :=
  let length := impulse_length decaySec sampleRate in
  mkBuffer 2 length sampleRate
    [impulse_channel rand first length;
     impulse_channel rand (first + Z.to_nat length) length].

(** ** What [ensureContext] leaves behind *)

(** The context [ensureContext] returns: the one there is, or a new one. *)
Definition context_of (deviceSampleRate : Q) (s : Engine) : AudioContext :=
  match audioCtxRef s with
  | Some ctx => ctx
  | None => mkContext deviceSampleRate []
  end.

(** The engine after [ensureContext]: every missing node is there, the
    impulse of a new convolver has consumed its draws, nothing else moved. *)
Definition ensured (rand : nat -> Q) (deviceSampleRate : Q) (s : Engine)
  : Engine :=
  let ctx := context_of deviceSampleRate s in
  let decay := reverbDecay (paramsRef s) in
  {| audioCtxRef := Some ctx;
     bufferRef := bufferRef s;
     paramsRef := paramsRef s;
     timerRef := timerRef s;
     dryGainRef :=
       Some match dryGainRef s with Some g => g | None => mkGain 1 end;
     wetGainRef :=
       Some match wetGainRef s with Some g => g | None => mkGain 1 end;
     reverbRef :=
       Some match reverbRef s with
            | Some impulse => impulse
            | None => generate rand (drawn s) decay (ctx_sampleRate ctx)
            end;
     duration := duration s;
     isPlaying := isPlaying s;
     alerts := alerts s;
     drawn :=
       match reverbRef s with
       | Some _ => drawn s
       | None =>
           (drawn s
            + 2 * Z.to_nat (impulse_length decay (ctx_sampleRate ctx)))%nat
       end |}.

(** ** What [renderLoop] schedules *)

(** The grains of the offline grid, one a grid point, the first of them
    placed by draw number [first]. *)
Definition offline_grid (rand : nat -> Q) (params : GranularParams)
    (durationSec : Q) (first : nat) : list Grain :=
  map (fun j =>
         synthesize params (rand (first + j)%nat)
           (grid_time (1 / Math_max (density params) 1) j) [ToDry; ToWet])
      (seq 0 (grid_fuel params durationSec)).

(** ** The properties of a grain *)



(** The release starts, counted from the start of the grain, at
    [max(grainDuration - release, attack)], which is not before the end of
    the attack. *)
Definition release_after_attack (g : Grain) : Prop :=
  g_releaseStart g
  = g_when g + Math_max (g_duration g - g_releaseSec g) (g_attackSec g)
  /\ g_rampUpEnd g = g_when g + g_attackSec g
  /\ g_attackSec g <= g_releaseStart g - g_when g
  /\ g_rampUpEnd g <= g_releaseStart g.

(** The rate of the grain is the equal-tempered pitch ratio, over the
    reals: [playbackRate * 2^(detuneSemitones / 12)]. *)
Definition equal_tempered (params : GranularParams) (g : Grain) : Prop :=
  g_playbackRate g
  = (Q2R (playbackRate params)
     * Rpower 2 (Q2R (detuneSemitones params) / 12))%R.

(** The grain starts past [endPoint], inside the widened window. *)
Definition starts_past_endPoint (params : GranularParams) (g : Grain)
  : Prop :=
  endPoint params < g_offset g
  /\ g_offset g <= startPoint params + 0.05 - grainDuration_of params.


(** ** Concrete engines, for the examples *)

(** [DEFAULT_PARAMS] of the page that drives the hook. *)
Definition DEFAULT_PARAMS : GranularParams :=
  {| grainSizeMs := 120; density := 8; playbackRate := 1;
     detuneSemitones := 0; startPoint := 0; endPoint := 1;
     attackMs := 10; releaseMs := 30; reverbWet := 0.25;
     reverbDecay := 2.5 |}.

(** The same with the shortest tail of the decay slider, 0.1 s: the impulse
    of the examples has 4410 samples a channel. *)
Definition short_tail : GranularParams :=
  merge DEFAULT_PARAMS
    (mkPartial None None None None None None None None None (Some 0.1)).

(** A stream of draws that are all the same value. *)
Definition constant_draws (r : Q) : nat -> Q := fun _ => r.

(** A decoded stereo file of ten seconds at 44.1 kHz; the samples are left
    out, the hook never reads them. *)
Definition ten_seconds : AudioBuffer := mkBuffer 2 441000 44100 [].

(** The engine after [useGranularEngine(short_tail)], a file load on a
    44.1 kHz device, and one [updateParams(partial)]. *)
Definition loaded_engine (r : Q) (partial : PartialParams) : Engine :=
  exec (updateParams (constant_draws r) partial)
    (exec (loadFile (constant_draws r) 44100 ten_seconds)
       (initEngine short_tail)).

(** The same engine after the page has set one more group of controls. *)

Definition half : nat -> Q := constant_draws (1 # 2).

Definition default_engine : Engine := loaded_engine (1 # 2) no_update.


(** Grains of 50 ms, attack and release of 500 ms. *)
Definition short_grain_engine : Engine :=
  loaded_engine (1 # 2)
    (mkPartial (Some 50) None None None None None (Some 500) (Some 500) None
       None).

(** Detune of an octave up, and of an octave down. *)
Definition octave_up_engine : Engine :=
  loaded_engine (1 # 2)
    (mkPartial None None None (Some 12) None None None None None None).

Definition octave_down_engine : Engine :=
  loaded_engine (1 # 2)
    (mkPartial None None None (Some (-12)) None None None None None None).


(** Region 2 s to 2.01 s, grains of 10 ms, draws of 3/4. *)
Definition narrow_engine : Engine :=
  loaded_engine (3 # 4)
    (mkPartial (Some 10) None None None (Some 2) (Some 2.01) None None None
       None).

(** ** What is asked of the callbacks *)


(** Every tick of the live timer in a ready engine starts one grain, and
    the grain has property [P] for the parameters of that moment. *)
Definition every_live_grain (rand : nat -> Q)
    (P : GranularParams -> Grain -> Prop) : Prop :=
  forall (s : Engine) (now : Q),
    live_ready s ->
    exists g,
      scheduled (exec (spawnGrain rand now) s) = scheduled s ++ [g]
      /\ P (paramsRef s) g.

(** Every offline render of an engine with a buffer resolves, with one
    grain a grid point, and each of them has property [P] for the
    parameters of the call. *)
Definition every_offline_grain (rand : nat -> Q) (deviceSampleRate : Q)
    (P : GranularParams -> Grain -> Prop) : Prop :=
  forall (s : Engine) (durationSec : Q),
    bufferRef s <> None ->
    exists rendered,
      eval (renderLoop rand deviceSampleRate durationSec) s
      = Resolved rendered
      /\ List.length (oc_sources (rb_graph rendered))
         = grid_fuel (paramsRef s) durationSec
      /\ Forall (P (paramsRef s)) (oc_sources (rb_graph rendered)).

(** ** Running the callbacks *)

Section Impulse.

Variable rand : nat -> Q.
Variable deviceSampleRate : Q.

Lemma for_each_random (f : Q -> Z -> Q) (n : nat) :
  forall (i : Z) (s : Engine),
    for_each n i (fun j => r <- Math_random rand ;; ret (f r j)) s
    = (map (fun k => f (rand (drawn s + k)) (i + Z.of_nat k)%Z) (seq 0 n),
       set_drawn (drawn s + n) s).
Proof.
  induction n as [|n IH]; intros i s.
  - cbn [for_each seq map]. unfold ret. f_equal.
    destruct s; unfold set_drawn; cbn. now rewrite Nat.add_0_r.
  - cbn [for_each]. unfold bind at 1. unfold bind at 1.
    unfold Math_random at 1. unfold ret at 1.
    unfold bind at 1. rewrite IH. unfold ret.
    cbn [seq map]. rewrite <- seq_shift, map_map.
    f_equal.
    + f_equal.
      * now rewrite Nat.add_0_r, Z.add_0_r.
      * apply map_ext. intros k.
        replace (drawn (set_drawn (S (drawn s)) s) + k)%nat
          with (drawn s + S k)%nat by (cbn; lia).
        now replace (i + 1 + Z.of_nat k)%Z with (i + Z.of_nat (S k))%Z by lia.
    + unfold set_drawn; cbn. f_equal. lia.
Qed.

(** Two passes of the sample loop are the two channels of [generate]. *)
Lemma channels_generate (sampleRate decaySec : Q) (s : Engine) :
  let length := impulse_length decaySec sampleRate in
  let sample (i : Z) : M Q :=
    r <- Math_random rand ;;
    ret ((r * 2 - 1) * Math_pow (1 - inject_Z i / inject_Z length) 2) in
  (ch0 <- for_each (Z.to_nat length) 0 sample ;;
   ch1 <- for_each (Z.to_nat length) 0 sample ;;
   ret (mkBuffer 2 length sampleRate [ch0; ch1])) s
  = (generate rand (drawn s) decaySec sampleRate,
     set_drawn (drawn s + 2 * Z.to_nat length) s).
Proof.
  intros length sample. subst sample.
  unfold bind at 1.
  rewrite (for_each_random
             (fun r i =>
                (r * 2 - 1)
                * Math_pow (1 - inject_Z i / inject_Z length) 2)).
  unfold bind at 1.
  rewrite (for_each_random
             (fun r i =>
                (r * 2 - 1)
                * Math_pow (1 - inject_Z i / inject_Z length) 2)).
  unfold ret, generate, impulse_channel, Math_pow. fold length.
  f_equal.
  unfold set_drawn; cbn. f_equal. lia.
Qed.

Lemma ensureContext_makeImpulse_run (ctx : AudioContext) (decaySec : Q)
    (s : Engine) :
  ensureContext_makeImpulse rand ctx decaySec s
  = (generate rand (drawn s) decaySec (ctx_sampleRate ctx),
     set_drawn
       (drawn s
        + 2 * Z.to_nat (impulse_length decaySec (ctx_sampleRate ctx))) s).
Proof. apply channels_generate. Qed.

Lemma updateParams_makeImpulse_run (ctx : AudioContext) (decaySec : Q)
    (s : Engine) :
  updateParams_makeImpulse rand ctx decaySec s
  = (generate rand (drawn s) decaySec (ctx_sampleRate ctx),
     set_drawn
       (drawn s
        + 2 * Z.to_nat (impulse_length decaySec (ctx_sampleRate ctx))) s).
Proof. apply channels_generate. Qed.

Lemma renderLoop_makeImpulse_run (sampleRate decaySec : Q) (s : Engine) :
  renderLoop_makeImpulse rand sampleRate decaySec s
  = (generate rand (drawn s) decaySec sampleRate,
     set_drawn
       (drawn s + 2 * Z.to_nat (impulse_length decaySec sampleRate)) s).
Proof. apply channels_generate. Qed.

End Impulse.

Section EnsureContext.
Variable rand : nat -> Q.
Variable deviceSampleRate : Q.

Lemma ensureContext_run (s : Engine) :
  ensureContext rand deviceSampleRate s
  = (context_of deviceSampleRate s, ensured rand deviceSampleRate s).
Proof.
  destruct s as [[ctx|] buf p t [dry|] [wet|] [rev|] du ip al dr];
    unfold ensureContext, ensured, context_of, bind, get, modify, ret;
    cbn [audioCtxRef bufferRef paramsRef timerRef dryGainRef wetGainRef
         reverbRef duration isPlaying alerts drawn set_audioCtxRef
         set_dryGainRef set_wetGainRef set_reverbRef];
    try reflexivity;
    rewrite ensureContext_makeImpulse_run; reflexivity.
Qed.

End EnsureContext.

Section Grains.
Variable rand : nat -> Q.
Variable deviceSampleRate : Q.

Lemma spawnGrain_run (now : Q) (s : Engine) (ctx : AudioContext)
    (buffer : AudioBuffer) :
  audioCtxRef s = Some ctx ->
  bufferRef s = Some buffer ->
  startPoint (paramsRef s) < endPoint (paramsRef s) ->
  spawnGrain rand now s
  = (tt,
     set_audioCtxRef
       (Some (mkContext (ctx_sampleRate ctx)
                (ctx_sources ctx
                 ++ [synthesize (paramsRef s) (rand (drawn s)) now
                       (live_outputs s)])))
       (set_drawn (S (drawn s)) s)).
Proof.
  intros Hctx Hbuf Hregion.
  unfold spawnGrain, bind, get. rewrite Hctx, Hbuf.
  destruct (Qle_bool (endPoint (paramsRef s)) (startPoint (paramsRef s)))
    eqn:Hskip.
  - apply Qle_bool_iff in Hskip. exfalso. lra.
  - unfold Math_random, start_source, modify.
    destruct s as [c b p t dry wet rev du ip al dr].
    cbn in Hctx. subst c. reflexivity.
Qed.

Lemma spawnGrain_skip (now : Q) (s : Engine) :
  audioCtxRef s = None \/ bufferRef s = None
  \/ endPoint (paramsRef s) <= startPoint (paramsRef s) ->
  spawnGrain rand now s = (tt, s).
Proof.
  intros H. unfold spawnGrain, bind, get, ret.
  destruct (audioCtxRef s) as [ctx|]; [|reflexivity].
  destruct (bufferRef s) as [buffer|]; [|reflexivity].
  destruct H as [H|[H|H]]; try discriminate.
  apply Qle_bool_iff in H. now rewrite H.
Qed.

Lemma grid_time_eq (step : Q) (k : nat) :
  grid_time step k == inject_Z (Z.of_nat k) * step.
Proof.
  induction k as [|k IH].
  - cbn [grid_time Z.of_nat]. change (inject_Z 0) with 0. lra.
  - cbn [grid_time]. rewrite IH.
    rewrite Nat2Z.inj_succ. unfold Z.succ. rewrite inject_Z_plus.
    change (inject_Z 1) with 1. lra.
Qed.

Lemma grid_divisor_pos (params : GranularParams) :
  1 <= Math_max (density params) 1.
Proof. unfold Math_max. apply Q.le_max_r. Qed.

(** Below [grid_fuel] the grid is before [durationSec]; at it, past. *)
Lemma grid_point_before (params : GranularParams) (durationSec : Q)
    (k : nat) :
  (k < grid_fuel params durationSec)%nat ->
  grid_time (1 / Math_max (density params) 1) k < durationSec.
Proof.
  intros Hk. rewrite grid_time_eq.
  pose proof (grid_divisor_pos params) as Hm.
  set (m := Math_max (density params) 1) in *.
  unfold grid_fuel in Hk. fold m in Hk.
  pose proof (Qceiling_lt (durationSec * m)) as Hc.
  assert (Hz : (Z.of_nat k <= Qceiling (durationSec * m) - 1)%Z) by lia.
  assert (Hq : inject_Z (Z.of_nat k) < durationSec * m).
  { eapply Qle_lt_trans; [|exact Hc]. now rewrite <- Zle_Qle. }
  setoid_replace (inject_Z (Z.of_nat k) * (1 / m))
    with (inject_Z (Z.of_nat k) / m) by (field; lra).
  apply Qlt_shift_div_r; lra.
Qed.

Lemma grid_point_past (params : GranularParams) (durationSec : Q) :
  durationSec
  <= grid_time (1 / Math_max (density params) 1)
       (grid_fuel params durationSec).
Proof.
  rewrite grid_time_eq.
  pose proof (grid_divisor_pos params) as Hm.
  set (m := Math_max (density params) 1) in *.
  unfold grid_fuel. fold m.
  pose proof (Qle_ceiling (durationSec * m)) as Hc.
  assert (Hz : (Qceiling (durationSec * m)
                <= Z.of_nat (Z.to_nat (Qceiling (durationSec * m))))%Z)
    by lia.
  assert (Hq : durationSec * m
               <= inject_Z (Z.of_nat (Z.to_nat (Qceiling (durationSec * m))))).
  { eapply Qle_trans; [exact Hc|]. now rewrite <- Zle_Qle. }
  setoid_replace
    (inject_Z (Z.of_nat (Z.to_nat (Qceiling (durationSec * m)))) * (1 / m))
    with (inject_Z (Z.of_nat (Z.to_nat (Qceiling (durationSec * m)))) / m)
    by (field; lra).
  apply Qle_shift_div_l; lra.
Qed.

Lemma renderLoop_for_run (params : GranularParams) (durationSec : Q) :
  let step := 1 / Math_max (density params) 1 in
  forall (fuel k : nat) (s : Engine),
    (k + fuel = grid_fuel params durationSec)%nat ->
    renderLoop_for rand fuel params durationSec (grainSizeMs params / 1000)
      step (grid_time step k) s
    = (Some
         (map (fun j =>
                 synthesize params (rand (drawn s + j))
                   (grid_time step (k + j)) [ToDry; ToWet])
              (seq 0 fuel)),
       set_drawn (drawn s + fuel) s).
Proof.
  intros step. induction fuel as [|fuel IH]; intros k s Hk.
  - cbn [renderLoop_for].
    destruct (Qlt_le_dec (grid_time step k) durationSec) as [Hlt|Hge].
    + exfalso. pose proof (grid_point_past params durationSec) as Hp.
      fold step in Hp. replace (grid_fuel params durationSec) with k in Hp by lia.
      lra.
    + unfold ret. cbn [seq map]. f_equal.
      destruct s; unfold set_drawn; cbn. now rewrite Nat.add_0_r.
  - cbn [renderLoop_for].
    destruct (Qlt_le_dec (grid_time step k) durationSec) as [Hlt|Hge].
    + unfold bind at 1. unfold Math_random at 1.
      unfold bind at 1.
      change (grid_time step k + step) with (grid_time step (S k)).
      rewrite IH by lia. unfold ret. cbn [option_map].
      cbn [seq map]. rewrite <- seq_shift, map_map.
      f_equal.
      * f_equal. f_equal.
        -- rewrite !Nat.add_0_r. reflexivity.
        -- apply map_ext. intros j.
           replace (drawn (set_drawn (S (drawn s)) s) + j)%nat
             with (drawn s + S j)%nat by (cbn; lia).
           now replace (S k + j)%nat with (k + S j)%nat by lia.
      * unfold set_drawn; cbn. f_equal. lia.
    + exfalso.
      pose proof (grid_point_before params durationSec k) as Hp.
      fold step in Hp. assert (k < grid_fuel params durationSec)%nat by lia.
      specialize (Hp H). lra.
Qed.

End Grains.

Section Render.
Variable rand : nat -> Q.
Variable deviceSampleRate : Q.

Lemma renderLoop_for_from_zero (params : GranularParams) (durationSec : Q)
    (s : Engine) :
  renderLoop_for rand (grid_fuel params durationSec) params durationSec
    (grainSizeMs params / 1000) (1 / Math_max (density params) 1) 0 s
  = (Some (offline_grid rand params durationSec (drawn s)),
     set_drawn (drawn s + grid_fuel params durationSec) s).
Proof.
  exact (renderLoop_for_run rand params durationSec
           (grid_fuel params durationSec) 0 s eq_refl).
Qed.

Lemma renderLoop_run (durationSec : Q) (s : Engine) (buffer : AudioBuffer) :
  bufferRef s = Some buffer ->
  let params := paramsRef s in
  let sampleRate := ctx_sampleRate (context_of deviceSampleRate s) in
  let s1 := ensured rand deviceSampleRate s in
  let first :=
    (drawn s1
     + 2 * Z.to_nat (impulse_length (reverbDecay params) sampleRate))%nat in
  renderLoop rand deviceSampleRate durationSec s
  = (Resolved
       (startRendering
          (mkOffline (ab_numberOfChannels buffer)
             (Math_ceil (durationSec * sampleRate)) sampleRate
             (generate rand (drawn s1) (reverbDecay params) sampleRate)
             (mkGain (reverbWet params)) (mkGain 1)
             (offline_grid rand params durationSec first))),
     set_drawn (first + grid_fuel params durationSec) s1).
Proof.
  intros Hbuf params sampleRate s1 first.
  unfold renderLoop, bind at 1, get. rewrite Hbuf.
  unfold bind at 1. rewrite ensureContext_run.
  unfold bind at 1. rewrite renderLoop_makeImpulse_run.
  unfold bind at 1. rewrite renderLoop_for_from_zero.
  reflexivity.
Qed.

Lemma renderLoop_null (durationSec : Q) (s : Engine) :
  bufferRef s = None ->
  renderLoop rand deviceSampleRate durationSec s
  = (ReturnedNull,
     set_alerts (alerts s ++ ["Load an audio file first."%string]) s).
Proof.
  intros Hbuf. unfold renderLoop, bind at 1, get. now rewrite Hbuf.
Qed.

(** A live tick in a ready engine starts the grain of [synthesize]. *)
Lemma live_tick_grain (P : Grain -> Prop) (now : Q) (s : Engine) :
  live_ready s ->
  P (synthesize (paramsRef s) (rand (drawn s)) now (live_outputs s)) ->
  exists g,
    scheduled (exec (spawnGrain rand now) s) = scheduled s ++ [g] /\ P g.
Proof.
  intros (Hctx & Hbuf & Hregion) HP.
  destruct (audioCtxRef s) as [ctx|] eqn:Ec; [|contradiction].
  destruct (bufferRef s) as [buffer|] eqn:Eb; [|contradiction].
  eexists. split; [|exact HP].
  unfold exec. rewrite (spawnGrain_run rand now s ctx buffer Ec Eb Hregion).
  unfold scheduled. rewrite Ec. reflexivity.
Qed.

(** An offline render resolves, with the grains of [synthesize]. *)
Lemma offline_render_grains (P : Grain -> Prop) (durationSec : Q)
    (s : Engine) :
  bufferRef s <> None ->
  (forall k t,
      P (synthesize (paramsRef s) (rand k) t [ToDry; ToWet])) ->
  exists rendered,
    eval (renderLoop rand deviceSampleRate durationSec) s
    = Resolved rendered
    /\ List.length (oc_sources (rb_graph rendered))
       = grid_fuel (paramsRef s) durationSec
    /\ Forall P (oc_sources (rb_graph rendered)).
Proof.
  intros Hbuf HP.
  destruct (bufferRef s) as [buffer|] eqn:Eb; [|contradiction].
  unfold eval. rewrite (renderLoop_run durationSec s buffer Eb).
  eexists. split; [reflexivity|].
  cbn [fst startRendering rb_graph oc_sources]. unfold offline_grid. split.
  - now rewrite length_map, length_seq.
  - apply Forall_forall. intros g Hg. apply in_map_iff in Hg.
    destruct Hg as (j & <- & _). apply HP.
Qed.

End Render.

(** ** The grain of [synthesize] *)




Lemma synthesize_release (params : GranularParams) (r now : Q)
    (outputs : list Destination) :
  release_after_attack (synthesize params r now outputs).
Proof.
  unfold release_after_attack.
  cbn [synthesize g_releaseStart g_when g_duration g_releaseSec g_attackSec
       g_rampUpEnd].
  pose proof (Q.le_max_r (grainDuration_of params - release_of params)
                (attack_of params)) as H.
  unfold Math_max. repeat split; lra.
Qed.

Lemma Q2R_twelfth (x : Q) : Q2R (x / 12) = (Q2R x / 12)%R.
Proof.
  rewrite Q2R_div by discriminate.
  replace (Q2R 12) with 12%R; [reflexivity|].
  unfold Q2R. cbn. Lra.lra.
Qed.

Lemma synthesize_rate (params : GranularParams) (r now : Q)
    (outputs : list Destination) :
  equal_tempered params (synthesize params r now outputs).
Proof.
  unfold equal_tempered. cbn [synthesize g_playbackRate].
  unfold rateMultiplier_of. now rewrite Q2R_twelfth.
Qed.

Lemma rate_octave_up (params : GranularParams) :
  playbackRate params == 1 -> detuneSemitones params == 12 ->
  rateMultiplier_of params = 2%R.
Proof.
  intros Hp Hd. unfold rateMultiplier_of. rewrite Q2R_twelfth.
  rewrite (Qeq_eqR _ _ Hp), (Qeq_eqR _ _ Hd).
  replace (Q2R 12 / 12)%R with 1%R by (unfold Q2R; cbn; Lra.lra).
  rewrite Rpower_1 by Lra.lra. unfold Q2R; cbn. Lra.lra.
Qed.

Lemma rate_octave_down (params : GranularParams) :
  playbackRate params == 1 -> detuneSemitones params == -12 ->
  rateMultiplier_of params = (1 / 2)%R.
Proof.
  intros Hp Hd. unfold rateMultiplier_of. rewrite Q2R_twelfth.
  rewrite (Qeq_eqR _ _ Hp), (Qeq_eqR _ _ Hd).
  replace (Q2R (-12) / 12)%R with (Ropp 1) by (unfold Q2R; cbn; Lra.lra).
  rewrite Rpower_Ropp, Rpower_1 by Lra.lra. unfold Q2R; cbn. Lra.lra.
Qed.

Lemma synthesize_past_endPoint (params : GranularParams) (r now : Q)
    (outputs : list Destination) :
  0 <= grainSizeMs params ->
  startPoint params < endPoint params ->
  endPoint params - startPoint params < 0.05 - grainDuration_of params ->
  (endPoint params - startPoint params) / (0.05 - grainDuration_of params)
  < r ->
  r <= 1 ->
  windowLength_of params == 0.05
  /\ starts_past_endPoint params (synthesize params r now outputs).
Proof.
  intros Hsize Hregion Hnarrow Hr Hr1. unfold starts_past_endPoint.
  cbn [synthesize g_offset].
  assert (Hgd : 0 <= grainDuration_of params)
    by (unfold grainDuration_of; apply Qle_shift_div_l; lra).
  assert (Hw : windowLength_of params == 0.05).
  { unfold windowLength_of, Math_max. apply Q.max_r. lra. }
  assert (E : offsetRange_of params == 0.05 - grainDuration_of params).
  { unfold offsetRange_of, Math_max. rewrite Hw. apply Q.max_l. lra. }
  rewrite E.
  set (w := 0.05 - grainDuration_of params) in *.
  assert (Hwpos : 0 < w) by lra.
  assert (Hlo : endPoint params - startPoint params < r * w).
  { setoid_replace (endPoint params - startPoint params)
      with ((endPoint params - startPoint params) / w * w)
      by (field; lra).
    apply Qmult_lt_compat_r; assumption. }
  assert (Hhi : r * w <= w).
  { setoid_replace w with (1 * w) at 2 by ring.
    apply Qmult_le_compat_r; lra. }
  assert (Ew : w == 0.05 - grainDuration_of params) by reflexivity.
  clearbody w. clear Hr.
  split; [exact Hw|split; lra].
Qed.


Section Frames.
Variable rand : nat -> Q.
Variable deviceSampleRate : Q.

Lemma updateParams_paramsRef (partial : PartialParams) (s : Engine) :
  paramsRef (exec (updateParams rand partial) s)
  = merge (paramsRef s) partial.
Proof.
  unfold exec, updateParams, bind, get, modify, ret.
  destruct s as [ctx buf p t dry [wet|] [rev|] du ip al dr];
    destruct partial as [? ? ? ? ? ? ? ? [w|] [d|]];
    destruct ctx as [ctx|];
    cbn [p_reverbWet p_reverbDecay wetGainRef reverbRef audioCtxRef
         set_paramsRef set_wetGainRef paramsRef bufferRef timerRef
         dryGainRef duration isPlaying alerts drawn snd];
    try reflexivity;
    rewrite updateParams_makeImpulse_run; reflexivity.
Qed.

(** [updateParams] leaves the transport alone. *)
Lemma updateParams_transport (partial : PartialParams) (s : Engine) :
  let s' := exec (updateParams rand partial) s in
  bufferRef s' = bufferRef s /\ timerRef s' = timerRef s
  /\ isPlaying s' = isPlaying s.
Proof.
  unfold exec, updateParams, bind, get, modify, ret.
  destruct s as [ctx buf p t dry [wet|] [rev|] du ip al dr];
    destruct partial as [? ? ? ? ? ? ? ? [w|] [d|]];
    destruct ctx as [ctx|];
    cbn [p_reverbWet p_reverbDecay wetGainRef reverbRef audioCtxRef
         set_paramsRef set_wetGainRef paramsRef bufferRef timerRef
         dryGainRef duration isPlaying alerts drawn snd];
    try (repeat split; reflexivity);
    rewrite updateParams_makeImpulse_run; repeat split; reflexivity.
Qed.

Lemma start_without_buffer (s : Engine) :
  bufferRef s = None ->
  start rand deviceSampleRate s
  = (tt,
     set_alerts (alerts s ++ ["Load an audio file first."%string])
       (ensured rand deviceSampleRate s)).
Proof.
  intros Hbuf. unfold start, bind at 1. rewrite ensureContext_run.
  unfold bind at 1, get.
  cbn [ensured bufferRef]. rewrite Hbuf. reflexivity.
Qed.

Lemma start_with_buffer (s : Engine) (buffer : AudioBuffer) :
  bufferRef s = Some buffer ->
  start rand deviceSampleRate s
  = (tt,
     setIsPlaying true
       (set_timerRef
          (Some (1000 / Math_max (density (paramsRef s)) 1))
          (ensured rand deviceSampleRate s))).
Proof.
  intros Hbuf. unfold start, bind at 1. rewrite ensureContext_run.
  unfold bind at 1, get.
  cbn [ensured bufferRef]. rewrite Hbuf.
  unfold clearTimer, bind, get, modify, ret.
  change (timerRef (ensured rand deviceSampleRate s)) with (timerRef s).
  destruct (timerRef s); reflexivity.
Qed.

Lemma scheduled_ensured (s : Engine) :
  scheduled (ensured rand deviceSampleRate s) = scheduled s.
Proof.
  unfold scheduled, ensured, context_of. cbn [audioCtxRef].
  destruct (audioCtxRef s); reflexivity.
Qed.

Lemma spawnGrain_transport (now : Q) (s : Engine) :
  let s' := exec (spawnGrain rand now) s in
  bufferRef s' = bufferRef s /\ timerRef s' = timerRef s
  /\ isPlaying s' = isPlaying s.
Proof.
  destruct (audioCtxRef s) as [ctx|] eqn:Ec.
  2:{ unfold exec. rewrite spawnGrain_skip by now left. now cbn. }
  destruct (bufferRef s) as [buffer|] eqn:Eb.
  2:{ unfold exec. rewrite spawnGrain_skip by (right; now left). now cbn. }
  destruct (Qlt_le_dec (startPoint (paramsRef s)) (endPoint (paramsRef s)))
    as [Hregion|Hskip].
  - unfold exec. rewrite (spawnGrain_run rand now s ctx buffer Ec Eb Hregion).
    cbn. now rewrite Eb.
  - unfold exec. rewrite spawnGrain_skip by (right; now right). now cbn.
Qed.

Lemma tick_run (now : Q) (s : Engine) :
  tick rand now s
  = match timerRef s with
    | Some _ => spawnGrain rand now s
    | None => (tt, s)
    end.
Proof. unfold tick, bind, get, ret. destruct (timerRef s); reflexivity. Qed.

(** Until a file is loaded the engine is idle: no timer, not playing. *)
Lemma idle_until_loaded (initial : GranularParams) (s : Engine) :
  reachable rand deviceSampleRate initial s ->
  bufferRef s = None -> timerRef s = None /\ isPlaying s = false.
Proof.
  induction 1 as [|s decoded _ _|s partial _ IH|s _ IH|s _ _|s now _ IH
                 |s durationSec _ IH]; intros Hnone.
  - now cbn.
  - exfalso. revert Hnone. unfold exec, loadFile, bind at 1.
    rewrite ensureContext_run. unfold bind, modify, ret. cbn. discriminate.
  - destruct (updateParams_transport partial s) as (Eb & Et & Ep).
    rewrite Et, Ep. apply IH. now rewrite <- Eb.
  - destruct (bufferRef s) as [buffer|] eqn:Eb.
    + exfalso. revert Hnone. unfold exec.
      rewrite (start_with_buffer s buffer Eb). cbn. now rewrite Eb.
    + unfold exec. rewrite (start_without_buffer s Eb). cbn. now apply IH.
  - unfold exec, stop, clearTimer, bind, get, modify, ret.
    destruct s as [? ? ? [iv|] ? ? ? ? ? ? ?]; split; reflexivity.
  - revert Hnone. unfold exec. rewrite tick_run.
    destruct (timerRef s) as [iv|] eqn:Et.
    + destruct (spawnGrain_transport now s) as (Eb & Et' & Ep).
      unfold exec in Eb, Et', Ep. rewrite Eb, Et', Ep. intros Hnone.
      destruct (IH Hnone) as (Ht & _). congruence.
    + cbn [snd]. intros Hnone. rewrite Et. split; [reflexivity|].
      now apply IH.
  - destruct (bufferRef s) as [buffer|] eqn:Eb.
    + exfalso. revert Hnone. unfold exec.
      rewrite (renderLoop_run rand deviceSampleRate durationSec s buffer Eb).
      cbn. now rewrite Eb.
    + unfold exec. rewrite (renderLoop_null _ _ _ _ Eb). cbn. now apply IH.
Qed.

End Frames.

(** ** The two paths, grain by grain *)

Lemma live_grains (rand : nat -> Q) (P : GranularParams -> Grain -> Prop) :
  (forall s now,
      live_ready s ->
      P (paramsRef s)
        (synthesize (paramsRef s) (rand (drawn s)) now (live_outputs s))) ->
  every_live_grain rand P.
Proof.
  intros HP s now Hready. apply live_tick_grain; auto.
Qed.

Lemma offline_grains (rand : nat -> Q) (deviceSampleRate : Q)
    (P : GranularParams -> Grain -> Prop) :
  (forall params k t, P params (synthesize params (rand k) t [ToDry; ToWet])) ->
  every_offline_grain rand deviceSampleRate P.
Proof.
  intros HP s durationSec Hbuf. apply offline_render_grains; auto.
Qed.


(** A concrete engine is ready: its refs and its region are evaluated. *)
Ltac ready_by_evaluation :=
  unfold live_ready; split; [|split];
  [ intros H; vm_compute in H; discriminate H
  | intros H; vm_compute in H; discriminate H
  | vm_compute; reflexivity ].


(** ** Grain placement (C1) *)

(** The scenario of the specification: region 2 s to 3 s, grains of 120 ms;
    the offsets range over 0.88 s, and a draw of 1/2 gives the offset 2.44. *)
Example scenario_offset_range :
  offsetRange_of
    (merge short_tail
       (mkPartial None None None None (Some 2) (Some 3) None None None None))
  == 0.88
  /\ exists g,
       scheduled
         (exec (spawnGrain half 0)
            (loaded_engine (1 # 2)
               (mkPartial None None None None (Some 2) (Some 3) None None
                  None None)))
       = [g]
       /\ g_offset g == 2.44.
Proof.
  split; [vm_compute; reflexivity|].
  eexists. split; vm_compute; reflexivity.
Qed.





Lemma short_grain_engine_ready : live_ready short_grain_engine.
Proof.
  ready_by_evaluation.
Qed.

(** ** The envelope (C2, C8) *)



(** C8: for every grain, live or offline, and every [attackMs] and
    [releaseMs], the release starts, counted from the start of the grain,
    at [max(grainDuration - release, attack)], which is at least [attack]:
    the ramp down never begins before the ramp up has ended. *)
Theorem release_starts_after_attack (rand : nat -> Q)
    (deviceSampleRate : Q) :
  every_live_grain rand (fun _ g => release_after_attack g)
  /\ every_offline_grain rand deviceSampleRate
       (fun _ g => release_after_attack g).
Proof.
  split.
  - apply live_grains. intros s now _. apply synthesize_release.
  - apply offline_grains. intros params k t. apply synthesize_release.
Qed.

Lemma release_starts_after_attack_witness :
  live_ready short_grain_engine
  /\ exists g,
       scheduled (exec (spawnGrain half 0) short_grain_engine)
       = scheduled short_grain_engine ++ [g]
       /\ release_after_attack g.
Proof.
  split; [exact short_grain_engine_ready|].
  exact (proj1 (release_starts_after_attack half 44100) short_grain_engine 0
           short_grain_engine_ready).
Defined.

(** ** The playback rate (C3) *)

Lemma octave_up_engine_ready : live_ready octave_up_engine.
Proof.
  ready_by_evaluation.
Qed.

Lemma octave_down_engine_ready : live_ready octave_down_engine.
Proof.
  ready_by_evaluation.
Qed.

(** C3: for every [playbackRate] and [detuneSemitones], the rate of a
    grain is [playbackRate * 2^(detuneSemitones / 12)], on the live and on
    the offline path alike; with [playbackRate = 1] a detune of 12 gives
    the rate 2, and a detune of -12 the rate 1/2. *)
Theorem rate_is_equal_tempered (rand : nat -> Q) (deviceSampleRate : Q) :
  every_live_grain rand equal_tempered
  /\ every_offline_grain rand deviceSampleRate equal_tempered
  /\ every_live_grain rand
       (fun params g =>
          playbackRate params == 1 ->
          (detuneSemitones params == 12 -> g_playbackRate g = 2%R)
          /\ (detuneSemitones params == -12 ->
              g_playbackRate g = (1 / 2)%R))
  /\ every_offline_grain rand deviceSampleRate
       (fun params g =>
          playbackRate params == 1 ->
          (detuneSemitones params == 12 -> g_playbackRate g = 2%R)
          /\ (detuneSemitones params == -12 ->
              g_playbackRate g = (1 / 2)%R)).
Proof.
  split; [|split; [|split]].
  - apply live_grains. intros s now _. apply synthesize_rate.
  - apply offline_grains. intros params k t. apply synthesize_rate.
  - apply live_grains. intros s now _ Hrate.
    cbn [synthesize g_playbackRate]. split; intros Hdetune.
    + now apply rate_octave_up.
    + now apply rate_octave_down.
  - apply offline_grains. intros params k t Hrate.
    cbn [synthesize g_playbackRate]. split; intros Hdetune.
    + now apply rate_octave_up.
    + now apply rate_octave_down.
Qed.

Lemma rate_is_equal_tempered_witness :
  (live_ready octave_up_engine
   /\ playbackRate (paramsRef octave_up_engine) == 1
   /\ detuneSemitones (paramsRef octave_up_engine) == 12
   /\ exists g,
        scheduled (exec (spawnGrain half 0) octave_up_engine)
        = scheduled octave_up_engine ++ [g]
        /\ g_playbackRate g = 2%R)
  /\ (live_ready octave_down_engine
      /\ playbackRate (paramsRef octave_down_engine) == 1
      /\ detuneSemitones (paramsRef octave_down_engine) == -12
      /\ exists g,
           scheduled (exec (spawnGrain half 0) octave_down_engine)
           = scheduled octave_down_engine ++ [g]
           /\ g_playbackRate g = (1 / 2)%R).
Proof.
  split.
  - split; [exact octave_up_engine_ready|].
    assert (Hrate : playbackRate (paramsRef octave_up_engine) == 1)
      by (vm_compute; reflexivity).
    assert (Hdetune : detuneSemitones (paramsRef octave_up_engine) == 12)
      by (vm_compute; reflexivity).
    split; [exact Hrate|]. split; [exact Hdetune|].
    destruct (proj1 (proj2 (proj2 (rate_is_equal_tempered half 44100)))
                octave_up_engine 0 octave_up_engine_ready)
      as (g & Hg & Hexamples).
    exists g. split; [exact Hg|exact (proj1 (Hexamples Hrate) Hdetune)].
  - split; [exact octave_down_engine_ready|].
    assert (Hrate : playbackRate (paramsRef octave_down_engine) == 1)
      by (vm_compute; reflexivity).
    assert (Hdetune : detuneSemitones (paramsRef octave_down_engine) == -12)
      by (vm_compute; reflexivity).
    split; [exact Hrate|]. split; [exact Hdetune|].
    destruct (proj1 (proj2 (proj2 (rate_is_equal_tempered half 44100)))
                octave_down_engine 0 octave_down_engine_ready)
      as (g & Hg & Hexamples).
    exists g. split; [exact Hg|exact (proj2 (Hexamples Hrate) Hdetune)].
Defined.

(** ** Grains outside the region (C10) *)

Lemma narrow_engine_ready : live_ready narrow_engine.
Proof.
  ready_by_evaluation.
Qed.

(** C10: there are parameter sets with [endPoint > startPoint] whose grain
    starts past [endPoint].  Whenever
    [0 < endPoint - startPoint < 0.05 - grainDuration] (the grain size not
    being negative), the window is widened to 0.05 s, and every draw above
    [(endPoint - startPoint) / (0.05 - grainDuration)], of which there are
    some in [0, 1), puts the offset in
    (endPoint, startPoint + 0.05 - grainDuration], live and offline.  With
    the region 2 s to 2.01 s, grains of 10 ms and a draw of 3/4 the offset
    is 2.03. *)
Theorem grain_may_start_past_endPoint :
  (forall (s : Engine) (now : Q),
      live_ready s ->
      0 <= grainSizeMs (paramsRef s) ->
      endPoint (paramsRef s) - startPoint (paramsRef s)
      < 0.05 - grainDuration_of (paramsRef s) ->
      windowLength_of (paramsRef s) == 0.05
      /\ (exists r,
            0 <= r /\ r < 1
            /\ (endPoint (paramsRef s) - startPoint (paramsRef s))
               / (0.05 - grainDuration_of (paramsRef s)) < r)
      /\ (forall rand : nat -> Q,
            (endPoint (paramsRef s) - startPoint (paramsRef s))
            / (0.05 - grainDuration_of (paramsRef s)) < rand (drawn s) ->
            rand (drawn s) < 1 ->
            exists g,
              scheduled (exec (spawnGrain rand now) s) = scheduled s ++ [g]
              /\ starts_past_endPoint (paramsRef s) g)
      /\ (forall (rand : nat -> Q) (deviceSampleRate durationSec : Q),
            (forall n,
                (endPoint (paramsRef s) - startPoint (paramsRef s))
                / (0.05 - grainDuration_of (paramsRef s)) < rand n
                /\ rand n < 1) ->
            exists rendered,
              eval (renderLoop rand deviceSampleRate durationSec) s
              = Resolved rendered
              /\ List.length (oc_sources (rb_graph rendered))
                 = grid_fuel (paramsRef s) durationSec
              /\ Forall (starts_past_endPoint (paramsRef s))
                   (oc_sources (rb_graph rendered))))
  /\ (startPoint (paramsRef narrow_engine)
      < endPoint (paramsRef narrow_engine)
      /\ exists g,
           scheduled (exec (spawnGrain (constant_draws (3 # 4)) 0)
                        narrow_engine) = [g]
           /\ endPoint (paramsRef narrow_engine) == 2.01
           /\ g_offset g == 2.03).
Proof.
  split.
  - intros s now Hready Hsize Hnarrow.
    pose proof Hready as (_ & _ & Hregion).
    set (p := paramsRef s) in *.
    set (thr := (endPoint p - startPoint p) / (0.05 - grainDuration_of p)).
    assert (Hw : 0 < 0.05 - grainDuration_of p) by lra.
    assert (Hthr1 : thr < 1) by (apply Qlt_shift_div_r; lra).
    assert (Hthr0 : 0 < thr) by (apply Qlt_shift_div_l; lra).
    split; [|split; [|split]].
    + refine (proj1 (synthesize_past_endPoint p 1 0 [] Hsize Hregion
                       Hnarrow Hthr1 _)). lra.
    + exists ((thr + 1) / 2).
      assert (E : (thr + 1) / 2 == (thr + 1) * (1 # 2)) by (field; lra).
      rewrite E. repeat split; lra.
    + intros rand Hlo Hhi. apply live_tick_grain; [exact Hready|].
      refine (proj2 (synthesize_past_endPoint p _ _ _ Hsize Hregion Hnarrow
                       Hlo _)). lra.
    + intros rand deviceSampleRate durationSec Hdraws.
      apply offline_render_grains; [apply Hready|].
      intros k t. destruct (Hdraws k) as [Hlo Hhi].
      refine (proj2 (synthesize_past_endPoint p _ _ _ Hsize Hregion Hnarrow
                       Hlo _)). lra.
  - split; [vm_compute; reflexivity|].
    eexists. split; [vm_compute; reflexivity|].
    split; vm_compute; reflexivity.
Qed.

Lemma grain_may_start_past_endPoint_witness :
  live_ready narrow_engine
  /\ 0 <= grainSizeMs (paramsRef narrow_engine)
  /\ endPoint (paramsRef narrow_engine) - startPoint (paramsRef narrow_engine)
     < 0.05 - grainDuration_of (paramsRef narrow_engine)
  /\ (endPoint (paramsRef narrow_engine)
      - startPoint (paramsRef narrow_engine))
     / (0.05 - grainDuration_of (paramsRef narrow_engine))
     < constant_draws (3 # 4) (drawn narrow_engine)
  /\ constant_draws (3 # 4) (drawn narrow_engine) < 1
  /\ exists g,
       scheduled (exec (spawnGrain (constant_draws (3 # 4)) 0) narrow_engine)
       = scheduled narrow_engine ++ [g]
       /\ starts_past_endPoint (paramsRef narrow_engine) g.
Proof.
  assert (Hsize : 0 <= grainSizeMs (paramsRef narrow_engine))
    by (vm_compute; discriminate).
  assert (Hnarrow :
            endPoint (paramsRef narrow_engine)
            - startPoint (paramsRef narrow_engine)
            < 0.05 - grainDuration_of (paramsRef narrow_engine))
    by (vm_compute; reflexivity).
  assert (Hlo :
            (endPoint (paramsRef narrow_engine)
             - startPoint (paramsRef narrow_engine))
            / (0.05 - grainDuration_of (paramsRef narrow_engine))
            < constant_draws (3 # 4) (drawn narrow_engine))
    by (vm_compute; reflexivity).
  assert (Hhi : constant_draws (3 # 4) (drawn narrow_engine) < 1)
    by (vm_compute; reflexivity).
  split; [exact narrow_engine_ready|]. split; [exact Hsize|].
  split; [exact Hnarrow|]. split; [exact Hlo|]. split; [exact Hhi|].
  exact (proj1 (proj2 (proj2
           (proj1 grain_may_start_past_endPoint narrow_engine 0
              narrow_engine_ready Hsize Hnarrow)))
           (constant_draws (3 # 4)) Hlo Hhi).
Defined.

(** ** The cadence (C4) *)





(** ** Without a buffer (C5) *)

(** C5: when no buffer is loaded, [start] alerts "Load an audio file
    first." and leaves the scheduler as it was, no timer is set,
    [isPlaying] keeps its value ([false], in every state the engine can
    be in), parameters and buffer are untouched and no grain is started,
    then or at a later tick; [renderLoop] alerts, returns null and
    changes nothing else.  (The audio context and its graph, which
    [start] creates on first use before it looks for the buffer, are not
    part of the scheduler.) *)
Theorem nothing_happens_without_buffer (rand : nat -> Q)
    (deviceSampleRate : Q) (s : Engine) :
  bufferRef s = None ->
  (alerts (exec (start rand deviceSampleRate) s)
   = alerts s ++ ["Load an audio file first."%string]
   /\ isPlaying (exec (start rand deviceSampleRate) s) = isPlaying s
   /\ timerRef (exec (start rand deviceSampleRate) s) = timerRef s
   /\ bufferRef (exec (start rand deviceSampleRate) s) = None
   /\ paramsRef (exec (start rand deviceSampleRate) s) = paramsRef s
   /\ scheduled (exec (start rand deviceSampleRate) s) = scheduled s)
  /\ (forall durationSec,
        renderLoop rand deviceSampleRate durationSec s
        = (ReturnedNull,
           set_alerts (alerts s ++ ["Load an audio file first."%string]) s))
  /\ (forall initial,
        reachable rand deviceSampleRate initial s ->
        isPlaying (exec (start rand deviceSampleRate) s) = false
        /\ timerRef (exec (start rand deviceSampleRate) s) = None
        /\ forall now,
             exec (tick rand now) (exec (start rand deviceSampleRate) s)
             = exec (start rand deviceSampleRate) s).
Proof.
  intros Hbuf. unfold exec.
  rewrite (start_without_buffer rand deviceSampleRate s Hbuf).
  cbn [snd]. split; [|split].
  - cbn [set_alerts ensured alerts isPlaying timerRef bufferRef paramsRef].
    repeat split; try assumption.
    apply (scheduled_ensured rand deviceSampleRate s).
  - intros durationSec. now apply renderLoop_null.
  - intros initial Hreach.
    destruct (idle_until_loaded rand deviceSampleRate initial s Hreach Hbuf)
      as [Htimer Hplaying].
    cbn [set_alerts ensured alerts isPlaying timerRef].
    split; [exact Hplaying|]. split; [exact Htimer|].
    intros now. rewrite tick_run.
    cbn [set_alerts ensured timerRef]. now rewrite Htimer.
Qed.

Lemma nothing_happens_without_buffer_witness :
  bufferRef (initEngine short_tail) = None
  /\ reachable half 44100 short_tail (initEngine short_tail)
  /\ alerts (exec (start half 44100) (initEngine short_tail))
     = ["Load an audio file first."%string]
  /\ isPlaying (exec (start half 44100) (initEngine short_tail)) = false
  /\ timerRef (exec (start half 44100) (initEngine short_tail)) = None
  /\ eval (renderLoop half 44100 5) (initEngine short_tail) = ReturnedNull.
Proof.
  pose proof (nothing_happens_without_buffer half 44100
                (initEngine short_tail) eq_refl)
    as ((Halerts & _) & Hrender & Hidle).
  destruct (Hidle short_tail (reach_init half 44100 short_tail))
    as (Hplaying & Htimer & _).
  split; [reflexivity|]. split; [apply reach_init|].
  split; [exact Halerts|]. split; [exact Hplaying|]. split; [exact Htimer|].
  unfold eval. now rewrite Hrender.
Defined.

(** ** The offline target (C6) *)



(** ** The reverb impulse (C7) *)




(** ** The parameter merge (C9) *)

(** C9: for every parameter snapshot and every partial update,
    [updateParams] leaves each field that is absent from the partial at its
    previous value and gives each field that is present the supplied
    value. *)
Theorem updateParams_replaces_supplied_fields (rand : nat -> Q)
    (s : Engine) (partial : PartialParams) (f : Field) :
  (supplied f partial = None ->
   field_of f (paramsRef (exec (updateParams rand partial) s))
   = field_of f (paramsRef s))
  /\ (forall v,
        supplied f partial = Some v ->
        field_of f (paramsRef (exec (updateParams rand partial) s)) = v).
Proof.
  rewrite updateParams_paramsRef.
  split; [intros H|intros v H]; destruct f; cbn in H |- *;
    rewrite H; reflexivity.
Qed.

Lemma updateParams_replaces_supplied_fields_witness :
  supplied FGrainSizeMs
    (mkPartial None (Some 12) None None None None None None None None)
  = None
  /\ supplied FDensity
       (mkPartial None (Some 12) None None None None None None None None)
     = Some 12
  /\ field_of FGrainSizeMs
       (paramsRef
          (exec (updateParams half
                   (mkPartial None (Some 12) None None None None None None
                      None None))
             default_engine))
     = field_of FGrainSizeMs (paramsRef default_engine)
  /\ field_of FDensity
       (paramsRef
          (exec (updateParams half
                   (mkPartial None (Some 12) None None None None None None
                      None None))
             default_engine))
     = 12.
Proof.
  split; [reflexivity|]. split; [reflexivity|]. split.
  - exact (proj1 (updateParams_replaces_supplied_fields half default_engine
                    (mkPartial None (Some 12) None None None None None None
                       None None)
                    FGrainSizeMs) eq_refl).
  - exact (proj2 (updateParams_replaces_supplied_fields half default_engine
                    (mkPartial None (Some 12) None None None None None None
                       None None)
                    FDensity) 12 eq_refl).
Defined.
